(** * The LlamaIndex demonstration scripts

    Five stand-alone Python scripts configure a retrieval framework and a
    hosted language model, ask one question (or loop on console input) and
    print the answer.  Each script is embedded as a program in a small
    reader/state/error monad: the reader part is the environment the script
    runs in (the framework, the remote model, the [pdf/] folder, the
    console), the state part is what the run leaves behind (the log of the
    calls made, the local disk, the text written to standard output, the
    number of console lines consumed), and the error part is a raised
    Python exception.  The four arithmetic tools of the agent script are
    embedded as functions on IEEE-754 binary64 values. *)

From Stdlib Require Import ZArith String List Bool Lia.
From Stdlib Require Import SpecFloat.
From stdpp Require Import base option list strings gmap.

Local Open Scope string_scope.
Local Open Scope list_scope.

(** ** Python values used by the scripts *)

(** Exceptions that can leave a call.  [EOFError] is raised by [input()] at
    end of input, [ZeroDivisionError] by [/]; everything the framework, the
    vector database or the remote provider raises is a [LibraryError]
    carrying the name of the exception. *)
Inductive exn : Type :=
| EOFError
| ZeroDivisionError
| LibraryError (name : string).

(** Outcome of running a piece of a script: it returned, it raised, or the
    run was cut while the console loop was still going. *)
Inductive result (A : Type) : Type :=
| Ret (a : A)
| Raise (x : exn)
| Pending.
Arguments Ret {A} a.
Arguments Raise {A} x.
Arguments Pending {A}.

(** Python [float] is IEEE-754 binary64.  The one NaN of [spec_float]
    stands for every NaN: which NaN (sign, payload) an operation hands back
    is not modelled, so that no equality is claimed between two results
    whose operands are NaN. *)
Definition prec : Z := 53.
Definition emax : Z := 1024.
Definition float : Type := spec_float.

(** [b == 0.0], as the interpreter tests the divisor. *)
Definition is_zero (b : float) : bool := SFeqb b (S754_zero false).

(** [a != a]: the number is a NaN. *)
Definition is_nan (a : float) : bool :=
  match a with S754_nan => true | _ => false end.

(** The interpreter's [*], [+], [-] and [/] on two floats.  The first three
    never raise; [/] raises when the divisor compares equal to zero. *)
Definition float_mul (a b : float) : float := SFmul prec emax a b.
Definition float_add (a b : float) : float := SFadd prec emax a b.
Definition float_sub (a b : float) : float := SFsub prec emax a b.
Definition float_truediv (a b : float) : result float :=
  if is_zero b then Raise ZeroDivisionError else Ret (SFdiv prec emax a b).

(** ** 05_basic_Agent.py: the four tools *)

Definition multiply (a b : float) : result float := Ret (float_mul a b).
Definition add (a b : float) : result float := Ret (float_add a b).
Definition subtract (a b : float) : result float := Ret (float_sub a b).
Definition divide (a b : float) : result float := float_truediv a b.

(** A number literal of the source: [0] is an int, [0.1] a float. *)
Inductive py_num : Type :=
| PyInt (n : Z)
| PyFloat (f : float).

(** Integers that are exactly representable, for examples. *)
Definition float_of_Z (n : Z) : float := binary_normalize prec emax n 0 false.

(** ** Objects handed out by the libraries *)

Definition document : Type := string.

Record llm : Type := OpenAI_config {
  model : string;
  temperature : option py_num;
  max_tokens : option Z
}.

(** A Chroma collection is named by the directory of its client and its own
    name. *)
Record collection : Type := Collection {
  client_path : string;
  collection_name : string
}.

Record vector_store : Type := ChromaStore { chroma_collection : collection }.
Record storage_context : Type := Storage { sc_vector_store : vector_store }.

Record reader : Type := Reader { reader_dir : string }.

Record index : Type := Index {
  ix_documents : list document;
  ix_storage : option storage_context;
  ix_llm : option llm
}.

Record query_engine : Type := QueryEngine {
  qe_index : index;
  qe_llm : option llm
}.

Record chat_engine : Type := ChatEngine {
  ce_index : index;
  ce_mode : string;
  ce_llm : option llm;
  ce_verbose : bool
}.

Record tool : Type := Tool {
  tool_name : string;
  tool_fn : float -> float -> result float
}.

Record agent : Type := Agent {
  ag_tools : list tool;
  ag_llm : option llm;
  ag_verbose : bool
}.

(** ** Calls that leave the script *)

Inductive call : Type :=
| Cload_dotenv
| COpenAI (cfg : llm)
| CSimpleDirectoryReader (input_dir : string)
| Cload_data (input_dir : string)
| CPersistentClient (path : string)
| Cget_or_create_collection (path name : string)
| CChromaVectorStore (c : collection)
| CStorageContext (v : vector_store)
| Cfrom_documents (docs : list document) (sc : option storage_context)
    (l : option llm)
| Cas_query_engine (ix : index) (l : option llm)
| Cas_chat_engine (ix : index) (mode : string) (l : option llm) (verbose : bool)
| Cquery (qe : query_engine) (q : string)
| Cchat (ce : chat_engine) (q : string)
| CFunctionTool (name : string)
| CReActAgent (tools : list tool) (l : option llm) (verbose : bool)
| Cagent_chat (ag : agent) (q : string)
| Cinput (prompt : string)
| Cprint (text : string).

(** One entry of the call log: the call, the number of blocking network
    requests the library performed while serving it, and the exception it
    raised, if any. *)
Record event : Type := Event {
  ev_call : call;
  ev_requests : nat;
  ev_raised : option exn
}.

(** ** The environment of a run *)

(** Standard input is either a finite text (a pipe or a file: the read after
    its last line meets end of input) or a terminal that always delivers
    another line. *)
Inductive console : Type :=
| Piped (lines : list string)
| Tty (lines : nat -> string).

Definition line_at (c : console) (i : nat) : option string :=
  match c with
  | Piped ls => ls !! i
  | Tty f => Some (f i)
  end.

Definition is_tty (c : console) : bool :=
  match c with Piped _ => false | Tty _ => true end.

(** What the script cannot decide: whether a call fails (a missing folder, a
    missing credential, a network error), what the folder holds, what the
    remote model answers, how many network requests a library call makes,
    what the library itself writes to standard output while it serves a call
    (the engines and the agent built with [verbose=True] log there), how far
    a call that fails had got on disk ([partial]: whether the directory or
    the collection was made, how many documents were stored), what is typed
    on the console and whether standard output is a terminal.  All of these
    may depend on the calls made so far. *)
Record env : Type := Env {
  fault : list call -> call -> option exn;
  files : string -> list document;
  answer : list call -> call -> string;
  requests : list call -> call -> nat;
  says : list call -> call -> list string;
  partial : list call -> call -> nat;
  stdin : console;
  stdout_is_tty : bool
}.

(** [input(prompt)] writes its prompt to standard output, except in a
    session where standard input and output are both a terminal: the
    interpreter then shows the prompt on the terminal through standard
    error. *)
Definition prompt_on_stdout (e : env) : bool :=
  negb (is_tty (stdin e) && stdout_is_tty e).

(** Who wrote a piece of standard output: a [print] of the script, the
    prompt of an [input], or anything else (the library, or a call that
    failed half way). *)
Inductive origin : Type := Printed | Prompted | Other.

(** ** The state of a run *)

(** [disk] is the part of the file system that outlives the process: for
    each database directory, its collections and the documents whose chunks
    they hold (chunking and embedding belong to the library).  The other
    fields die with the process. *)
Record state : Type := State {
  trace : list event;
  disk : gmap string (gmap string (list document));
  stdout : list (origin * string);
  consumed : nat
}.

Definition calls (st : state) : list call := map ev_call (trace st).

Definition write (o : origin) (text : string) (st : state) : state :=
  {| trace := trace st; disk := disk st;
     stdout := stdout st ++ [(o, text)]; consumed := consumed st |}.

Definition write_all (o : origin) (texts : list string) (st : state) : state :=
  {| trace := trace st; disk := disk st;
     stdout := stdout st ++ map (pair o) texts; consumed := consumed st |}.

Definition advance (st : state) : state :=
  {| trace := trace st; disk := disk st;
     stdout := stdout st; consumed := S (consumed st) |}.

Definition set_disk (d : gmap string (gmap string (list document)))
    (st : state) : state :=
  {| trace := trace st; disk := d;
     stdout := stdout st; consumed := consumed st |}.

Definition log (ev : event) (st : state) : state :=
  {| trace := trace st ++ [ev]; disk := disk st;
     stdout := stdout st; consumed := consumed st |}.

(** Collections of a database directory, and documents of a collection. *)
Definition collections_at (path : string)
    (d : gmap string (gmap string (list document)))
  : gmap string (list document) :=
  default ∅ (d !! path).

Definition stored (c : collection)
    (d : gmap string (gmap string (list document))) : list document :=
  default [] (collections_at (client_path c) d !! collection_name c).

(** [chromadb.PersistentClient(path)] creates the directory when missing. *)
Definition open_client (path : string)
    (d : gmap string (gmap string (list document)))
  : gmap string (gmap string (list document)) :=
  <[path := collections_at path d]> d.

(** [get_or_create_collection(name)] keeps an existing collection. *)
Definition get_or_create (c : collection)
    (d : gmap string (gmap string (list document)))
  : gmap string (gmap string (list document)) :=
  <[client_path c :=
      <[collection_name c := stored c d]> (collections_at (client_path c) d)]> d.

(** Indexing into a Chroma-backed storage context adds to the collection. *)
Definition add_documents (c : collection) (docs : list document)
    (d : gmap string (gmap string (list document)))
  : gmap string (gmap string (list document)) :=
  <[client_path c :=
      <[collection_name c := stored c d ++ docs]>
        (collections_at (client_path c) d)]> d.

(** The line feed that [print] puts after its text. *)
Definition newline : string := String (Ascii.ascii_of_nat 10) "".

(** What [print(text)] writes. *)
Definition line (a : string) : string := String.append a newline.

(** What the library writes to standard output while it serves a call. *)
Definition chatter (e : env) (c : call) (st : state) : state :=
  write_all Other (says e (calls st) c) st.

(** What a call to the vector database that goes through does to the disk;
    an index without a storage context lives in memory. *)
Definition effect (c : call) (d : gmap string (gmap string (list document)))
  : gmap string (gmap string (list document)) :=
  match c with
  | CPersistentClient path => open_client path d
  | Cget_or_create_collection path name =>
      get_or_create (Collection path name) d
  | Cfrom_documents docs (Some sc) _ =>
      add_documents (chroma_collection (sc_vector_store sc)) docs d
  | _ => d
  end.

(** What a call to the vector database that fails has done to the disk
    before failing: nothing, or its effect, and for an index build the
    first [k] documents. *)
Definition half_done (k : nat) (c : call)
    (d : gmap string (gmap string (list document)))
  : gmap string (gmap string (list document)) :=
  match c with
  | CPersistentClient _ | Cget_or_create_collection _ _ =>
      match k with O => d | S _ => effect c d end
  | Cfrom_documents docs (Some sc) l =>
      match k with
      | O => d
      | S _ => effect (Cfrom_documents (take k docs) (Some sc) l) d
      end
  | _ => d
  end.

(** The state a failing call leaves. *)
Definition failed (e : env) (c : call) (st : state) : state :=
  set_disk (half_done (partial e (calls st) c) c (disk st)) (chatter e c st).

(** What a call that the environment lets through does by itself.
    [input(prompt)] writes the prompt, then reads a line or raises
    [EOFError]; [print(text)] writes the text and a newline; a library call
    may write to standard output and, when it goes to the vector database,
    touches the disk. *)
Definition perform (e : env) (c : call) (st : state) : option exn * state :=
  match c with
  | Cinput prompt =>
      let st' := if prompt_on_stdout e then write Prompted prompt st
                 else st in
      match line_at (stdin e) (consumed st) with
      | Some _ => (None, advance st')
      | None => (Some EOFError, st')
      end
  | Cprint text => (None, write Printed (line text) st)
  | _ => (None, set_disk (effect c (disk st)) (chatter e c st))
  end.

(** ** The monad of scripts *)

Definition M (A : Type) : Type := env -> state -> result A * state.

Definition ret {A} (a : A) : M A := fun _ st => (Ret a, st).

Definition bind {A B} (m : M A) (k : A -> M B) : M B :=
  fun e st =>
    match m e st with
    | (Ret a, st') => k a e st'
    | (Raise x, st') => (Raise x, st')
    | (Pending, st') => (Pending, st')
    end.

Definition pending {A} : M A := fun _ st => (Pending, st).

Declare Scope script_scope.
Delimit Scope script_scope with script.
Notation "x <- m ;; k" := (bind m (fun x => k))
  (at level 100, m at next level, right associativity) : script_scope.
Notation "m ;; k" := (bind m (fun _ => k))
  (at level 100, right associativity) : script_scope.
Local Open Scope script_scope.

(** A call is logged, together with the network requests it cost; it raises
    what the environment makes it raise, leaving what [failed] says, and
    otherwise does what [perform] says.  [reply] is the value handed back, read off the environment and the
    state in which the call was made. *)
Definition invoke {A} (c : call) (reply : env -> state -> A) : M A :=
  fun e st =>
    let n := requests e (calls st) c in
    match fault e (calls st) c with
    | Some x => (Raise x, log (Event c n (Some x)) (failed e c st))
    | None =>
        match perform e c st with
        | (Some x, st') => (Raise x, log (Event c n (Some x)) st')
        | (None, st') => (Ret (reply e st), log (Event c n None) st')
        end
    end.

(** *** The library functions the scripts call *)

Definition load_dotenv : M unit :=
  invoke Cload_dotenv (fun _ _ => tt).

Definition OpenAI (cfg : llm) : M llm :=
  invoke (COpenAI cfg) (fun _ _ => cfg).

Definition SimpleDirectoryReader (input_dir : string) : M reader :=
  invoke (CSimpleDirectoryReader input_dir) (fun _ _ => Reader input_dir).

Definition load_data (r : reader) : M (list document) :=
  invoke (Cload_data (reader_dir r)) (fun e _ => files e (reader_dir r)).

Definition PersistentClient (path : string) : M string :=
  invoke (CPersistentClient path) (fun _ _ => path).

Definition get_or_create_collection (db : string) (name : string)
  : M collection :=
  invoke (Cget_or_create_collection db name) (fun _ _ => Collection db name).

Definition ChromaVectorStore (c : collection) : M vector_store :=
  invoke (CChromaVectorStore c) (fun _ _ => ChromaStore c).

Definition from_defaults (v : vector_store) : M storage_context :=
  invoke (CStorageContext v) (fun _ _ => Storage v).

Definition from_documents (docs : list document)
    (sc : option storage_context) (l : option llm) : M index :=
  invoke (Cfrom_documents docs sc l) (fun _ _ => Index docs sc l).

Definition as_query_engine (ix : index) (l : option llm) : M query_engine :=
  invoke (Cas_query_engine ix l) (fun _ _ => QueryEngine ix l).

Definition as_chat_engine (ix : index) (mode : string) (l : option llm)
    (verbose : bool) : M chat_engine :=
  invoke (Cas_chat_engine ix mode l verbose)
    (fun _ _ => ChatEngine ix mode l verbose).

(** The text of the response object, as [str(response)] gives it. *)
Definition query (qe : query_engine) (q : string) : M string :=
  invoke (Cquery qe q) (fun e st => answer e (calls st) (Cquery qe q)).

Definition chat (ce : chat_engine) (q : string) : M string :=
  invoke (Cchat ce q) (fun e st => answer e (calls st) (Cchat ce q)).

Definition FunctionTool_from_defaults (t : tool) : M tool :=
  invoke (CFunctionTool (tool_name t)) (fun _ _ => t).

Definition from_tools (tools : list tool) (l : option llm) (verbose : bool)
  : M agent :=
  invoke (CReActAgent tools l verbose) (fun _ _ => Agent tools l verbose).

Definition agent_chat (ag : agent) (q : string) : M string :=
  invoke (Cagent_chat ag q) (fun e st => answer e (calls st) (Cagent_chat ag q)).

Definition input (prompt : string) : M string :=
  invoke (Cinput prompt)
    (fun e st => default "" (line_at (stdin e) (consumed st))).

Definition print (text : string) : M unit :=
  invoke (Cprint text) (fun _ _ => tt).

(** ** The five scripts *)

Definition gpt35 (t : option py_num) (n : option Z) : llm :=
  {| model := "gpt-3.5-turbo"; temperature := t; max_tokens := n |}.

(** The question the three retrieval scripts with a fixed query ask. *)
Definition design_goals : string :=
  "What are the design goals and give details about it please.".

(** The literal [0.1] as a binary64 value. *)
Definition one_tenth : float := S754_finite false 7205759403792794 (-56).

(** 01_simple_rag.py.  The model object of line 5 is built and dropped. *)
Definition script01 : M unit :=
  load_dotenv ;;
  OpenAI (gpt35 None None) ;;
  reader <- SimpleDirectoryReader "pdf/" ;;
  documents <- load_data reader ;;
  index <- from_documents documents None None ;;
  query_engine <- as_query_engine index None ;;
  response <- query query_engine design_goals ;;
  print response.

(** 02_rag_using_chat_engine.py *)
Definition script02 : M unit :=
  load_dotenv ;;
  llm <- OpenAI (gpt35 None None) ;;
  reader <- SimpleDirectoryReader "pdf/" ;;
  data <- load_data reader ;;
  index <- from_documents data None None ;;
  chat_engine <- as_chat_engine index "best" (Some llm) true ;;
  response <- chat chat_engine design_goals ;;
  print response.

(** 03_rag_chatbot.py, lines 16 to 21.  [fuel] bounds the number of
    iterations that are run; the source loop has no bound. *)
Fixpoint chat_loop (fuel : nat) (chat_engine : chat_engine) : M unit :=
  match fuel with
  | O => pending
  | S fuel' =>
      text_input <- input "User: " ;;
      if String.eqb text_input "exit" then ret tt
      else
        response <- chat chat_engine text_input ;;
        print (String.append "Agent: " response) ;;
        chat_loop fuel' chat_engine
  end.

(** 03_rag_chatbot.py.  The model object of line 9 is not handed to the chat
    engine. *)
Definition script03 (fuel : nat) : M unit :=
  load_dotenv ;;
  OpenAI (gpt35 (Some (PyInt 0)) None) ;;
  reader <- SimpleDirectoryReader "pdf/" ;;
  data <- load_data reader ;;
  index <- from_documents data None None ;;
  chat_engine <- as_chat_engine index "condense_question" None true ;;
  chat_loop fuel chat_engine.

(** 04_custom_rag.py *)
Definition script04 : M unit :=
  load_dotenv ;;
  reader <- SimpleDirectoryReader "pdf/" ;;
  documents <- load_data reader ;;
  db <- PersistentClient "./chroma_db" ;;
  chroma_collection <- get_or_create_collection db "quickstart" ;;
  vector_store <- ChromaVectorStore chroma_collection ;;
  storage_context <- from_defaults vector_store ;;
  llm <- OpenAI (gpt35 (Some (PyFloat one_tenth)) (Some 512%Z)) ;;
  index <- from_documents documents (Some storage_context) (Some llm) ;;
  query_engine <- as_query_engine index (Some llm) ;;
  response <- query query_engine design_goals ;;
  print "***********" ;;
  print response.

(** The question of the agent script. *)
Definition arithmetic_question : string :=
  "What is 20+(2*4) / (5 - 1)? Use a tool to calculate every step.".

(** 05_basic_Agent.py *)
Definition script05 : M unit :=
  load_dotenv ;;
  llm <- OpenAI (gpt35 (Some (PyInt 0)) None) ;;
  multiply_tool <- FunctionTool_from_defaults (Tool "multiply" multiply) ;;
  add_tool <- FunctionTool_from_defaults (Tool "add" add) ;;
  sub_tool <- FunctionTool_from_defaults (Tool "subtract" subtract) ;;
  divide_tool <- FunctionTool_from_defaults (Tool "divide" divide) ;;
  agent <- from_tools [multiply_tool; add_tool; sub_tool; divide_tool]
             (Some llm) true ;;
  response <- agent_chat agent arithmetic_question ;;
  print response.

Inductive script : Type :=
| Script01 | Script02 | Script03 | Script04 | Script05.

Definition program (s : script) (fuel : nat) : M unit :=
  match s with
  | Script01 => script01
  | Script02 => script02
  | Script03 => script03 fuel
  | Script04 => script04
  | Script05 => script05
  end.

(** A process starts with an empty log, nothing printed and nothing read;
    the disk is whatever earlier runs left. *)
Definition start (d : gmap string (gmap string (list document))) : state :=
  {| trace := []; disk := d; stdout := []; consumed := 0 |}.

Definition run (s : script) (fuel : nat) (e : env)
    (d : gmap string (gmap string (list document))) : result unit * state :=
  program s fuel e (start d).

Definition interactive (s : script) : bool :=
  match s with Script03 => true | _ => false end.

(** ** Observations on a call log *)

Definition is_query (c : call) : bool :=
  match c with
  | Cquery _ _ | Cchat _ _ | Cagent_chat _ _ => true
  | _ => false
  end.

Definition question_of (c : call) : option string :=
  match c with
  | Cquery _ q | Cchat _ q | Cagent_chat _ q => Some q
  | _ => None
  end.

(** The questions sent to the remote model, in order. *)
Definition questions (tr : list event) : list string :=
  omap (fun ev => question_of (ev_call ev)) tr.

(** The texts handed to [print], in order. *)
Definition printed (tr : list event) : list string :=
  omap (fun ev => match ev_call ev with Cprint t => Some t | _ => None end) tr.

Definition loads_from (dir : string) (c : call) : bool :=
  match c with Cload_data d => String.eqb d dir | _ => false end.

Definition builds_index (c : call) : bool :=
  match c with Cfrom_documents _ _ _ => true | _ => false end.

Definition persistent_call (c : call) : bool :=
  match c with
  | CPersistentClient _ | Cget_or_create_collection _ _
  | Cfrom_documents _ (Some _) _ => true
  | _ => false
  end.


(** A plain environment for examples: no failure, one document, a fixed
    answer, [n] network requests for every question and none elsewhere, a
    library that writes nothing, standard output redirected. *)
Definition plain (n : nat) (c : console) : env :=
  {| fault := fun _ _ => None;
     files := fun _ => ["design.pdf"];
     answer := fun _ _ => "The design goals are simplicity and speed.";
     requests := fun _ c => if is_query c then n else 0;
     says := fun _ _ => [];
     partial := fun _ _ => 0;
     stdin := c;
     stdout_is_tty := false |}.

(** ** Notions used to state the properties *)

(** A discipline of runs: [I] holds as long as the script goes on, [X] when
    it has raised, [O] when the run is cut inside the console loop; [V]
    holds of the value handed back. *)
Definition sound (e : env) (I : state -> Prop) (X : exn -> state -> Prop)
    (O : state -> Prop) {A} (V : A -> Prop) (m : M A) : Prop :=
  forall st, I st ->
    match m e st with
    | (Ret a, st') => V a /\ I st'
    | (Raise x, st') => X x st'
    | (Pending, st') => O st'
    end.

(** What the discipline asks of a single call. *)
Definition call_sound (e : env) (I : state -> Prop)
    (X : exn -> state -> Prop) (c : call) : Prop :=
  forall st, I st ->
    let n := requests e (calls st) c in
    match fault e (calls st) c with
    | Some x => X x (log (Event c n (Some x)) (failed e c st))
    | None =>
        match perform e c st with
        | (Some x, st') => X x (log (Event c n (Some x)) st')
        | (None, st') => I (log (Event c n None) st')
        end
    end.

(** The collection 04_custom_rag.py works on, the storage context it wires
    to it and the model it attaches. *)
Definition quickstart : collection := Collection "./chroma_db" "quickstart".

Definition quickstart_storage : storage_context :=
  Storage (ChromaStore quickstart).

Definition custom_llm : llm := gpt35 (Some (PyFloat one_tenth)) (Some 512%Z).

(** The calls a script can make: only 04_custom_rag.py goes to the
    persistent vector database, and only to its one collection. *)
Definition may_call (s : script) (c : call) : Prop :=
  match c with
  | CPersistentClient path => s = Script04 /\ path = "./chroma_db"
  | Cget_or_create_collection path name =>
      s = Script04 /\ Collection path name = quickstart
  | Cfrom_documents _ (Some sc) _ => s = Script04 /\ sc = quickstart_storage
  | _ => True
  end.

(** Apart from the collection [c], the disk [d'] holds what [d] holds. *)
Definition untouched (c : collection)
    (d d' : gmap string (gmap string (list document))) : Prop :=
  (forall p, p <> client_path c -> d' !! p = d !! p) /\
  (forall n, n <> collection_name c ->
     collections_at (client_path c) d' !! n =
     collections_at (client_path c) d !! n).

(** What is fixed in each script without a loop: its one question, the
    index it builds, what it prints around the answer [a]. *)
Definition fixed_question (s : script) : string :=
  match s with
  | Script05 => arithmetic_question
  | _ => design_goals
  end.

Definition loading (s : script) : list call :=
  match s with
  | Script05 => []
  | _ => [Cload_data "pdf/"]
  end.

Definition indexing (s : script) (e : env) : list call :=
  match s with
  | Script05 => []
  | Script04 =>
      [Cfrom_documents (files e "pdf/") (Some quickstart_storage)
         (Some custom_llm)]
  | _ => [Cfrom_documents (files e "pdf/") None None]
  end.

(** The calls each script makes when all of them go through (for 03, before
    its loop). *)
Definition calls_made (s : script) : nat :=
  match s with
  | Script01 | Script02 => 8
  | Script03 => 6
  | Script04 => 13
  | Script05 => 9
  end.

Definition printing (s : script) (a : string) : list string :=
  match s with
  | Script04 => ["***********"; a]
  | _ => [a]
  end.

(** No call of the log raised. *)
Definition clean (st : state) : Prop :=
  Forall (fun ev => ev_raised ev = None) (trace st).

(** The last call of the log raised [x], and no call before it raised. *)
Definition crashed (x : exn) (st : state) : Prop :=
  exists tr ev, trace st = tr ++ [ev] /\ ev_raised ev = Some x /\
    Forall (fun ev' => ev_raised ev' = None) tr.

(** The disk is still [d] and no call went to the vector database. *)
Definition volatile (d : gmap string (gmap string (list document)))
    (st : state) : Prop :=
  disk st = d /\
  Forall (fun ev => persistent_call (ev_call ev) = false) (trace st).

(** The texts of standard output that have a given origin, in order. *)
Definition same_origin (o o' : origin) : bool :=
  match o, o' with
  | Printed, Printed | Prompted, Prompted | Other, Other => true
  | _, _ => false
  end.

Definition shown (o : origin) (out : list (origin * string)) : list string :=
  omap (fun it => if same_origin o it.1 then Some it.2 else None) out.

(** The texts of the [print] calls of a log that went through. *)
Definition printed_ok (tr : list event) : list string :=
  omap (fun ev => match ev_call ev, ev_raised ev with
                  | Cprint t, None => Some t
                  | _, _ => None
                  end) tr.

(** What the script itself printed is what its [print] calls that went
    through were given, each followed by a newline. *)
Definition prints_are_shown (st : state) : Prop :=
  shown Printed (stdout st) = map line (printed_ok (trace st)).

(** The first [n] lines of the console from position [pos] on (fewer when
    the input ends before). *)
Fixpoint feed (c : console) (pos n : nat) : list string :=
  match n with
  | O => []
  | S n' =>
      match line_at c pos with
      | Some l => l :: feed c (S pos) n'
      | None => []
      end
  end.

(** The answers obtained by the questions of a log that started after the
    calls [h]. *)
Fixpoint responses (e : env) (h : list call) (evs : list event)
  : list string :=
  match evs with
  | [] => []
  | ev :: evs' =>
      (if is_query (ev_call ev) then [answer e h (ev_call ev)] else [])
        ++ responses e (h ++ [ev_call ev]) evs'
  end.

(** The calls of the console loop. *)
Definition is_loop_call (c : call) : bool :=
  match c with
  | Cinput _ | Cchat _ _ | Cprint _ => true
  | _ => false
  end.

(** The chat engine that 03_rag_chatbot.py builds. *)
Definition chatbot_engine (e : env) : chat_engine :=
  ChatEngine (Index (files e "pdf/") None None) "condense_question" None true.


(** Environments and values for examples: nothing on the console; a pipe
    with two near misses before ["exit"]; a few binary64 numbers. *)
Definition batch : env := plain 1 (Piped []).

(** An environment without the folder [pdf/]: making a reader for it
    raises. *)
Definition no_folder : env :=
  {| fault := fun _ c => match c with
                         | CSimpleDirectoryReader _ =>
                             Some (LibraryError "ValueError")
                         | _ => None
                         end;
     files := fun _ => [];
     answer := fun _ _ => "";
     requests := fun _ _ => 0;
     says := fun _ _ => [];
     partial := fun _ _ => 0;
     stdin := Piped [];
     stdout_is_tty := false |}.

(** An environment in which the model hands back an empty text. *)
Definition mute : env :=
  {| fault := fun _ _ => None;
     files := fun _ => ["design.pdf"];
     answer := fun _ _ => "";
     requests := fun _ _ => 0;
     says := fun _ _ => [];
     partial := fun _ _ => 0;
     stdin := Piped [];
     stdout_is_tty := false |}.

(** An environment whose library logs a line on standard output for every
    question it is asked, as the verbose engines do. *)
Definition wordy : env :=
  {| fault := fun _ _ => None;
     files := fun _ => ["design.pdf"];
     answer := fun _ _ => "The design goals are simplicity and speed.";
     requests := fun _ _ => 0;
     says := fun _ c => if is_query c then ["Querying with: ..."] else [];
     partial := fun _ _ => 0;
     stdin := Piped [];
     stdout_is_tty := false |}.

(** An environment in which the request of the query fails, after the index
    was built. *)
Definition stuck : env :=
  {| fault := fun _ c => if is_query c
                         then Some (LibraryError "APIConnectionError")
                         else None;
     files := fun _ => ["design.pdf"];
     answer := fun _ _ => "";
     requests := fun _ _ => 0;
     says := fun _ _ => [];
     partial := fun _ _ => 0;
     stdin := Piped [];
     stdout_is_tty := false |}.

Definition session : env := plain 1 (Piped ["Exit"; " exit"; "exit"]).
Definition f2 : float := float_of_Z 2.
Definition f4 : float := float_of_Z 4.
Definition f8 : float := float_of_Z 8.

(** ** Further notions: order of calls, wiring of the model, the loop's log *)

(** Every call of [cs] that satisfies [q] comes after a call that satisfies
    [p]; [seen] tells whether such a call was made before [cs]. *)
Fixpoint follows (p q : call -> bool) (seen : bool) (cs : list call) : bool :=
  match cs with
  | [] => true
  | c :: cs' => (if q c then seen else true) && follows p q (seen || p c) cs'
  end.




(** The three shapes of a call of the console loop run on the engine
    [ce]. *)
Definition loop_event (ce : chat_engine) (ev : event) : Prop :=
  match ev_call ev with
  | Cinput p => p = "User: "
  | Cchat ce' _ => ce' = ce
  | Cprint t => exists a, t = String.append "Agent: " a
  | _ => False
  end.

(** The call went through. *)
Definition succeeded (ev : event) : bool :=
  match ev_raised ev with None => true | Some _ => false end.

(** The log holds an index build that went through. *)
Definition indexed (tr : list event) : bool :=
  existsb (fun ev => builds_index (ev_call ev) && succeeded ev) tr.


(** The interpreter's unary [-] on a float. *)
Definition float_neg (a : float) : float := SFopp a.


(** * Reasoning about runs *)

(** ** One call followed by the rest of the script *)

Lemma bind_invoke {A B} (c : call) (reply : env -> state -> A) (k : A -> M B)
    (e : env) (st : state) :
  bind (invoke c reply) k e st =
  match fault e (calls st) c with
  | Some x =>
      (Raise x,
       log (Event c (requests e (calls st) c) (Some x)) (failed e c st))
  | None =>
      match perform e c st with
      | (Some x, st') =>
          (Raise x, log (Event c (requests e (calls st) c) (Some x)) st')
      | (None, st') =>
          k (reply e st) e (log (Event c (requests e (calls st) c) None) st')
      end
  end.
Proof.
  unfold bind, invoke.
  destruct (fault e (calls st) c); [done|].
  by destruct (perform e c st) as [[x|] st'].
Qed.

Lemma invoke_unfold {A} (c : call) (reply : env -> state -> A)
    (e : env) (st : state) :
  invoke c reply e st =
  match fault e (calls st) c with
  | Some x =>
      (Raise x,
       log (Event c (requests e (calls st) c) (Some x)) (failed e c st))
  | None =>
      match perform e c st with
      | (Some x, st') =>
          (Raise x, log (Event c (requests e (calls st) c) (Some x)) st')
      | (None, st') =>
          (Ret (reply e st), log (Event c (requests e (calls st) c) None) st')
      end
  end.
Proof. reflexivity. Qed.

Ltac unfold_calls :=
  unfold load_dotenv, OpenAI, SimpleDirectoryReader, load_data,
    PersistentClient,
    get_or_create_collection, ChromaVectorStore, from_defaults,
    from_documents, as_query_engine, as_chat_engine, query, chat,
    FunctionTool_from_defaults, from_tools, agent_chat, input, print.

Ltac unfold_scripts :=
  unfold run, program, script01, script02, script03, script04, script05.

Ltac unfold_run_in H :=
  unfold run, program, script01, script02, script03, script04, script05,
    load_dotenv, OpenAI, SimpleDirectoryReader, load_data, PersistentClient,
    get_or_create_collection, ChromaVectorStore, from_defaults,
    from_documents, as_query_engine, as_chat_engine, query, chat,
    FunctionTool_from_defaults, from_tools, agent_chat, input, print in H.

(** Put the state reached so far in the form of a record. *)
Ltac tidy :=
  unfold failed, chatter, write_all, write, log, set_disk, advance;
  cbn [perform failed half_done effect chatter write_all write
       log set_disk advance start calls List.map app
       trace disk stdout consumed ev_call reader_dir].

Ltac tidy_in H :=
  unfold failed, chatter, write_all, write, log, set_disk, advance in H;
  cbn [perform failed half_done effect chatter write_all write
       log set_disk advance start calls List.map app
       trace disk stdout consumed ev_call reader_dir] in H.

(** What the environment decides about a call is kept abstract. *)
Ltac forget_env :=
  repeat match goal with
         | |- context [says ?e ?h ?c] => generalize (says e h c); intro
         | |- context [partial ?e ?h ?c] => generalize (partial e h c); intro
         end.

Ltac forget_env_in H :=
  repeat match type of H with
         | context [says ?e ?h ?c] =>
             let w := fresh "w" in set (w := says e h c) in H; clearbody w
         | context [partial ?e ?h ?c] =>
             let k := fresh "k" in set (k := partial e h c) in H; clearbody k
         end.

(** Run the next call of the goal and split on whether it fails. *)
Ltac next_call :=
  first [rewrite bind_invoke | rewrite invoke_unfold];
  match goal with
  | |- context [requests ?e ?h ?c] => generalize (requests e h c); intro
  end;
  match goal with
  | |- context [fault ?e ?h ?c] => destruct (fault e h c)
  end;
  tidy; forget_env.

(** The same in a hypothesis that says the run returned. *)
Ltac next_call_in H :=
  first [rewrite bind_invoke in H | rewrite invoke_unfold in H];
  match type of H with
  | context [requests ?e ?h ?c] =>
      let n := fresh "n" in
      set (n := requests e h c) in H; clearbody n
  end;
  match type of H with
  | context [fault ?e ?h ?c] => destruct (fault e h c)
  end;
  [discriminate H|tidy_in H; forget_env_in H].

(** ** Invariants of a run *)

Section Discipline.
Variable e : env.
Variable I : state -> Prop.
Variable X : exn -> state -> Prop.
Variable O : state -> Prop.

Lemma sound_ret {A} (V : A -> Prop) (a : A) : V a -> sound e I X O V (ret a).
Proof. by intros Ha st H. Qed.

Lemma sound_bind {A B} (V : A -> Prop) (W : B -> Prop)
    (m : M A) (k : A -> M B) :
  sound e I X O V m -> (forall a, V a -> sound e I X O W (k a)) ->
  sound e I X O W (bind m k).
Proof.
  intros Hm Hk st H. specialize (Hm st H). unfold bind.
  destruct (m e st) as [[a|x|] st']; [|done..].
  destruct Hm as [Ha H']. by apply Hk.
Qed.

Lemma sound_pending {A} (V : A -> Prop) :
  (forall st, I st -> O st) -> sound e I X O V pending.
Proof. intros HO st H. by apply HO. Qed.

Lemma sound_invoke {A} (V : A -> Prop) (c : call)
    (reply : env -> state -> A) :
  call_sound e I X c -> (forall st, V (reply e st)) ->
  sound e I X O V (invoke c reply).
Proof.
  intros Hc HV st H. specialize (Hc st H). unfold invoke.
  destruct (fault e (calls st) c); [done|].
  by destruct (perform e c st) as [[x|] st'].
Qed.

(** The value of a call is the reply computed in some state. *)
Lemma sound_invoke_reply {A} (c : call) (reply : env -> state -> A) :
  call_sound e I X c ->
  sound e I X O (fun a => exists st, a = reply e st) (invoke c reply).
Proof. intros Hc. apply sound_invoke; eauto. Qed.

(** The console loop keeps a discipline that its three calls keep. *)
Lemma sound_chat_loop (fuel : nat) (ce : chat_engine) :
  (forall st, I st -> O st) ->
  (forall c, is_loop_call c = true -> call_sound e I X c) ->
  sound e I X O (fun _ => True) (chat_loop fuel ce).
Proof.
  intros HO Hc. induction fuel as [|fuel IH]; simpl.
  - by apply sound_pending.
  - eapply sound_bind; [by apply sound_invoke_reply, Hc|].
    intros l _. destruct (String.eqb l "exit"); [by apply sound_ret|].
    eapply sound_bind; [by apply sound_invoke_reply, Hc|]. intros r _.
    eapply sound_bind; [by apply sound_invoke_reply, Hc|]. intros _ _.
    exact IH.
Qed.

(** A script keeps a discipline that its calls keep.  Only the console loop
    can be cut. *)
Lemma sound_program (s : script) (fuel : nat) :
  (interactive s = true -> forall st, I st -> O st) ->
  (forall c, may_call s c -> call_sound e I X c) ->
  sound e I X O (fun _ => True) (program s fuel).
Proof.
  intros HO Hc.
  destruct s; simpl; unfold_scripts; unfold_calls;
    repeat (eapply sound_bind;
            [by apply sound_invoke_reply, Hc|]; intros ? [? ->]; cbv beta);
    try (apply sound_invoke; [by apply Hc|done]).
  apply sound_chat_loop; [by apply HO|].
  intros c Hloop. apply Hc. by destruct c.
Qed.

End Discipline.

(** ** Three disciplines *)

Lemma effect_volatile (c : call)
    (d : gmap string (gmap string (list document))) :
  persistent_call c = false -> effect c d = d.
Proof. destruct c as [| | | | | | | |docs [sc|] l| | | | | | | | |]; done. Qed.

Lemma failed_trace (e : env) (c : call) (st : state) :
  trace (failed e c st) = trace st.
Proof. done. Qed.

Lemma failed_volatile (e : env) (c : call) (st : state) :
  persistent_call c = false -> disk (failed e c st) = disk st.
Proof.
  unfold failed.
  by destruct c as [| | | | | | | |docs [sc|] l| | | | | | | | |].
Qed.

Lemma perform_trace (e : env) (c : call) (st : state) :
  trace (perform e c st).2 = trace st.
Proof.
  destruct c; cbn [perform snd]; try done.
  by destruct (line_at (stdin e) (consumed st)), (prompt_on_stdout e).
Qed.

Lemma perform_volatile (e : env) (c : call) (st : state) :
  persistent_call c = false -> disk (perform e c st).2 = disk st.
Proof.
  intros Hc. destruct c; cbn [perform snd set_disk disk];
    rewrite ?effect_volatile by done; try done.
  by destruct (line_at (stdin e) (consumed st)), (prompt_on_stdout e).
Qed.

(** Failures are not intercepted. *)
Lemma call_orderly (e : env) (c : call) : call_sound e clean crashed c.
Proof.
  intros st H. simpl.
  destruct (fault e (calls st) c) as [x|].
  { eexists _, _. split; [reflexivity|]. split; [done|].
    done. }
  pose proof (perform_trace e c st) as Ht.
  destruct (perform e c st) as [[x|] st']; simpl in Ht.
  - eexists _, _. split; [reflexivity|]. split; [done|]. by rewrite Ht.
  - unfold clean; simpl. rewrite Ht. apply Forall_app.
    by split; [|repeat constructor].
Qed.

Lemma run_orderly (s : script) (fuel : nat) (e : env)
    (d : gmap string (gmap string (list document))) :
  match run s fuel e d with
  | (Raise x, st) => crashed x st
  | (_, st) => clean st
  end.
Proof.
  assert (sound e clean crashed clean (fun _ => True) (program s fuel)) as H.
  { apply sound_program; [done|]. intros c _. apply call_orderly. }
  specialize (H (start d)). unfold run.
  destruct (program s fuel e (start d)) as [[[]|x|] st];
    apply H; constructor.
Qed.

(** Calls that do not go to the vector database leave the disk alone. *)
Lemma call_volatile (e : env) (d : gmap string (gmap string (list document)))
    (c : call) :
  persistent_call c = false ->
  call_sound e (volatile d) (fun _ => volatile d) c.
Proof.
  intros Hc st [Hd Ht]. simpl.
  assert (forall n x st', disk st' = d -> trace st' = trace st ->
            volatile d (log (Event c n x) st')) as Hlog.
  { intros n x st' Hd' Ht'. split; simpl; [done|]. rewrite Ht'.
    apply Forall_app. split; [done|]. by repeat constructor. }
  destruct (fault e (calls st) c) as [x|].
  { apply Hlog; [by rewrite failed_volatile|apply failed_trace]. }
  pose proof (perform_trace e c st) as Ht'.
  pose proof (perform_volatile e c st Hc) as Hd'.
  destruct (perform e c st) as [[x|] st']; simpl in *;
    apply Hlog; congruence.
Qed.

Lemma run_volatile (s : script) (fuel : nat) (e : env)
    (d : gmap string (gmap string (list document))) :
  s <> Script04 -> volatile d (run s fuel e d).2.
Proof.
  intros Hs.
  assert (sound e (volatile d) (fun _ => volatile d) (volatile d)
            (fun _ => True) (program s fuel)) as H.
  { apply sound_program; [done|].
    intros c Hc. apply call_volatile.
    destruct c as [| | | | | | | |docs [sc|] l| | | | | | | | |];
      simpl in *; try done; by destruct Hc. }
  specialize (H (start d)). unfold run.
  destruct (program s fuel e (start d)) as [[[]|x|] st];
    apply H; by split; [|constructor].
Qed.

(** What the script printed is what its [print] calls were given. *)
Lemma shown_app (o : origin) (out out' : list (origin * string)) :
  shown o (out ++ out') = shown o out ++ shown o out'.
Proof. apply omap_app. Qed.

Lemma shown_other (o o' : origin) (texts : list string) :
  same_origin o o' = false -> shown o (map (pair o') texts) = [].
Proof.
  intros Ho. induction texts as [|t texts IH]; [done|].
  unfold shown in *. simpl. by rewrite Ho.
Qed.

Lemma printed_ok_snoc (tr : list event) (c : call) (n : nat)
    (x : option exn) :
  printed_ok (tr ++ [Event c n x]) =
  printed_ok tr ++
  match c, x with Cprint t, None => [t] | _, _ => [] end.
Proof.
  unfold printed_ok. rewrite omap_app. simpl. by destruct c, x.
Qed.

Lemma call_prints_shown (e : env) (c : call) :
  call_sound e prints_are_shown (fun _ => prints_are_shown) c.
Proof.
  intros st H. unfold prints_are_shown in *. simpl.
  destruct (fault e (calls st) c) as [x|].
  { simpl. rewrite printed_ok_snoc.
    rewrite shown_app, shown_other, !app_nil_r by done.
    destruct c; by rewrite app_nil_r. }
  destruct c; cbn [perform]; cbn [snd fst log set_disk trace stdout];
    rewrite ?printed_ok_snoc;
    cbn [chatter write_all write trace stdout];
    rewrite ?shown_app, ?shown_other, ?app_nil_r by done; try done.
  - destruct (line_at (stdin e) (consumed st)), (prompt_on_stdout e);
      cbn [advance write trace stdout];
      rewrite printed_ok_snoc, ?shown_app, app_nil_r; simpl;
      by rewrite ?app_nil_r.
  - by rewrite H, map_app.
Qed.

Lemma run_prints_shown (s : script) (fuel : nat) (e : env)
    (d : gmap string (gmap string (list document))) :
  prints_are_shown (run s fuel e d).2.
Proof.
  assert (sound e prints_are_shown (fun _ => prints_are_shown)
            prints_are_shown (fun _ => True) (program s fuel)) as H.
  { apply sound_program; [done|]. intros c _. apply call_prints_shown. }
  specialize (H (start d) eq_refl). unfold run.
  by destruct (program s fuel e (start d)) as [[[]|x|] st]; [destruct H|..].
Qed.

(** In a log without a failed call, every [print] went through. *)
Lemma printed_ok_all (tr : list event) :
  Forall (fun ev => ev_raised ev = None) tr -> printed_ok tr = printed tr.
Proof.
  induction tr as [|ev tr IH]; intros H; [done|].
  apply Forall_cons in H as [Hev H]. specialize (IH H).
  unfold printed_ok, printed in *. change (ev :: tr) with ([ev] ++ tr).
  rewrite !omap_app, IH. f_equal. simpl. rewrite Hev.
  by destruct (ev_call ev).
Qed.

Lemma printed_ok_clean (st : state) :
  clean st -> printed_ok (trace st) = printed (trace st).
Proof. apply printed_ok_all. Qed.

(** A script without a loop is never cut. *)
Lemma run_not_pending (s : script) (fuel : nat) (e : env)
    (d : gmap string (gmap string (list document))) :
  interactive s = false -> (run s fuel e d).1 <> Pending.
Proof.
  intros Hs.
  assert (sound e (fun _ => True) (fun _ _ => True) (fun _ => False)
            (fun _ => True) (program s fuel)) as H.
  { apply sound_program; [by rewrite Hs|].
    intros c _ st _. simpl.
    destruct (fault e (calls st) c); [done|].
    by destruct (perform e c st) as [[x|] st']. }
  specialize (H (start d) ltac:(done)). unfold run.
  by destruct (program s fuel e (start d)) as [[[]|x|] st].
Qed.

(** ** The console loop *)


(** What any run of the loop adds to the log: [k] questions, which are the
    next [k] lines of the console and are not ["exit"], and at most as many
    printed answers; when the loop returns, line [k] is the ["exit"] that
    stopped it and what was printed is ["Agent: "] before each answer. *)
Lemma chat_loop_spec (e : env) (ce : chat_engine) (fuel : nat) (st : state) :
  exists evs k,
    trace (chat_loop fuel ce e st).2 = trace st ++ evs /\
    Forall (fun ev => is_loop_call (ev_call ev) = true) evs /\
    questions evs = feed (stdin e) (consumed st) k /\
    length (questions evs) = k /\
    k <= fuel /\
    Forall (fun q => q <> "exit") (questions evs) /\
    length (printed evs) <= k /\
    disk (chat_loop fuel ce e st).2 = disk st /\
    ((chat_loop fuel ce e st).1 = Ret tt ->
       k < fuel /\
       line_at (stdin e) (consumed st + k) = Some "exit" /\
       length (printed evs) = k /\
       consumed (chat_loop fuel ce e st).2 = consumed st + S k /\
       printed evs =
         map (String.append "Agent: ") (responses e (calls st) evs)).
Proof.
  revert st. induction fuel as [|fuel IH]; intros st.
  { exists [], 0. simpl. rewrite app_nil_r. repeat split; try done. }
  cbn [chat_loop]. unfold_calls. rewrite bind_invoke.
  destruct (fault e (calls st) (Cinput "User: ")) as [x|] eqn:Hin.
  { eexists [_], 0. cbn [fst snd log trace disk].
    rewrite failed_trace, failed_volatile by done. simpl.
    repeat split; try done; try lia. by repeat constructor. }
  cbn [perform].
  destruct (line_at (stdin e) (consumed st)) as [l|] eqn:Hl.
  2:{ eexists [_], 0.
      destruct (prompt_on_stdout e); simpl;
        repeat split; try done; try lia; by repeat constructor. }
  change (default "" (Some l)) with l.
  set (st1 := log _ (advance _)).
  assert (trace st1 = trace st ++ [Event (Cinput "User: ")
                                     (requests e (calls st) (Cinput "User: "))
                                     None] /\
          disk st1 = disk st /\ consumed st1 = S (consumed st))
    as (Ht1 & Hd1 & Hc1) by (by subst st1; destruct (prompt_on_stdout e)).
  clearbody st1.
  destruct (String.eqb_spec l "exit") as [->|Hne].
  { eexists [_], 0. simpl. rewrite Nat.add_0_r, Ht1, Hd1, Hc1.
    repeat split; try done; try lia. by repeat constructor. }
  rewrite bind_invoke.
  destruct (fault e (calls st1) (Cchat ce l)) as [x|] eqn:Hchat.
  { eexists [_; _], 1. cbn [fst snd log trace disk].
    rewrite failed_trace, failed_volatile, Ht1, Hd1, <- app_assoc by done.
    split; [reflexivity|].
    simpl. rewrite Hl. simpl.
    repeat split; try done; try lia; by repeat constructor. }
  cbn [perform effect].
  set (st2 := log _ (set_disk _ (chatter e (Cchat ce l) st1))).
  assert (trace st2 = trace st ++ [Event (Cinput "User: ")
                                     (requests e (calls st) (Cinput "User: "))
                                     None;
                                   Event (Cchat ce l)
                                     (requests e (calls st1) (Cchat ce l))
                                     None] /\
          disk st2 = disk st /\ consumed st2 = S (consumed st))
    as (Ht2 & Hd2 & Hc2).
  { subst st2. simpl. by rewrite Ht1, <- app_assoc. }
  clearbody st2.
  rewrite bind_invoke.
  match goal with |- context [fault e ?h ?c] =>
    destruct (fault e h c) as [x|] eqn:Hprint end.
  { eexists [_; _; _], 1. cbn [fst snd log trace disk].
    rewrite failed_trace, failed_volatile, Ht2, Hd2, <- app_assoc by done.
    split; [reflexivity|].
    simpl. rewrite Hl. simpl.
    repeat split; try done; try lia; by repeat constructor. }
  cbn [perform].
  match goal with |- context [chat_loop fuel ce e ?s] =>
    destruct (IH s)
      as (evs & k & Ht & Hloop & Hq & Hk & Hle & Hx & Hp & Hd & Hr)
  end.
  eexists (_ :: _ :: _ :: evs), (S k).
  split.
  { rewrite Ht. simpl. rewrite Ht2, <- !app_assoc. reflexivity. }
  split; [by repeat constructor|].
  simpl. rewrite Hl. simpl in Hq. rewrite Hc2 in Hq.
  split; [by rewrite Hq|].
  split; [by rewrite Hk|].
  split; [lia|].
  split; [by constructor|].
  split; [lia|].
  split; [by rewrite Hd; simpl|].
  intros Hret. destruct (Hr Hret) as (Hf & Hexit & Hpk & Hc & Hout).
  simpl in Hexit, Hc. rewrite Hc2 in Hexit, Hc.
  split; [lia|].
  split; [by rewrite <- Hexit; f_equal; lia|].
  split; [lia|].
  split; [rewrite Hc; lia|].
  rewrite Hout. f_equal.
  - unfold calls. by rewrite Ht1, map_app.
  - unfold calls. simpl. rewrite Ht2, !map_app. simpl.
    by rewrite <- !app_assoc.
Qed.





(** 03_rag_chatbot.py either fails before its loop, having asked and printed
    nothing, or enters the loop with the engine built over [pdf/]. *)
Lemma script03_cases (fuel : nat) (e : env)
    (d : gmap string (gmap string (list document))) :
  (exists x st, run Script03 fuel e d = (Raise x, st) /\
     questions (trace st) = [] /\ printed (trace st) = []) \/
  (exists st0,
     run Script03 fuel e d = chat_loop fuel (chatbot_engine e) e st0 /\
     calls st0 = [Cload_dotenv; COpenAI (gpt35 (Some (PyInt 0)) None);
                  CSimpleDirectoryReader "pdf/"; Cload_data "pdf/";
                  Cfrom_documents (files e "pdf/") None None;
                  Cas_chat_engine (Index (files e "pdf/") None None)
                    "condense_question" None true] /\
     questions (trace st0) = [] /\ printed (trace st0) = [] /\
     responses e [] (trace st0) = [] /\
     consumed st0 = 0).
Proof.
  unfold_scripts. unfold_calls.
  do 6 (next_call; [left; eexists _, _; split; [reflexivity|done]|]).
  right. eexists. split; [reflexivity|done].
Qed.




(** ** Observations on a log that grows *)

Lemma responses_app (e : env) (h : list call) (tr evs : list event) :
  responses e h (tr ++ evs) =
  responses e h tr ++ responses e (h ++ map ev_call tr) evs.
Proof.
  revert h. induction tr as [|ev tr IH]; intros h; simpl.
  - by rewrite app_nil_r.
  - rewrite IH, <- !app_assoc. reflexivity.
Qed.

Lemma loop_calls_build_nothing (evs : list event) :
  Forall (fun ev => is_loop_call (ev_call ev) = true) evs ->
  List.filter builds_index (map ev_call evs) = [] /\
  List.filter (loads_from "pdf/") (map ev_call evs) = [].
Proof.
  induction 1 as [|ev evs Hev _ [IH1 IH2]]; [done|]. simpl.
  rewrite IH1, IH2. by destruct (ev_call ev).
Qed.

(** The whole of 03_rag_chatbot.py: the questions of any run are the first
    [k] lines of the console, none of them ["exit"]; a run that returns was
    stopped by line [k], has printed ["Agent: "] and the answer for each
    question and has loaded [pdf/] and indexed it in memory. *)
Lemma script03_spec (fuel : nat) (e : env)
    (d : gmap string (gmap string (list document))) :
  exists k,
    questions (trace (run Script03 fuel e d).2) = feed (stdin e) 0 k /\
    length (questions (trace (run Script03 fuel e d).2)) = k /\
    k <= fuel /\
    Forall (fun q => q <> "exit")
      (questions (trace (run Script03 fuel e d).2)) /\
    length (printed (trace (run Script03 fuel e d).2)) <= k /\
    ((run Script03 fuel e d).1 = Ret tt ->
       k < fuel /\
       line_at (stdin e) k = Some "exit" /\
       length (printed (trace (run Script03 fuel e d).2)) = k /\
       consumed (run Script03 fuel e d).2 = S k /\
       printed (trace (run Script03 fuel e d).2) =
         map (String.append "Agent: ")
           (responses e [] (trace (run Script03 fuel e d).2)) /\
       List.filter (loads_from "pdf/") (calls (run Script03 fuel e d).2) =
         [Cload_data "pdf/"] /\
       List.filter builds_index (calls (run Script03 fuel e d).2) =
         [Cfrom_documents (files e "pdf/") None None]).
Proof.
  destruct (script03_cases fuel e d)
    as [(x & st & -> & Hq & Hp)
       |(st0 & -> & Hcalls & Hq0 & Hp0 & Hr0 & Hc0)].
  { exists 0. simpl. rewrite Hq, Hp. repeat split; try done. lia. }
  destruct (chat_loop_spec e (chatbot_engine e) fuel st0)
    as (evs & k & Ht & Hloop & Hq & Hk & Hle & Hx & Hp & _ & Hr).
  exists k. unfold calls. rewrite Ht. unfold questions, printed in *.
  rewrite !omap_app, Hq0, Hp0, Hc0 in *. simpl.
  repeat (split; [done|]).
  intros Hret. destruct (Hr Hret) as (Hf & Hexit & Hpk & Hc & Hout).
  repeat (split; [done|]).
  rewrite responses_app, Hr0, Hout. simpl.
  split; [done|].
  rewrite map_app, !List.filter_app.
  destruct (loop_calls_build_nothing evs Hloop) as [-> ->].
  unfold calls in Hcalls. rewrite Hcalls. by split.
Qed.

(** ** The vector database on disk *)

Lemma stored_open_client (c : collection) (path : string)
    (d : gmap string (gmap string (list document))) :
  stored c (open_client path d) = stored c d.
Proof.
  unfold stored, collections_at, open_client.
  destruct (decide (path = client_path c)) as [->|Hne].
  - by rewrite lookup_insert_eq.
  - by rewrite lookup_insert_ne.
Qed.

Lemma stored_get_or_create (c : collection)
    (d : gmap string (gmap string (list document))) :
  stored c (get_or_create c d) = stored c d.
Proof.
  unfold stored at 1, collections_at at 1, get_or_create.
  rewrite lookup_insert_eq. simpl. by rewrite lookup_insert_eq.
Qed.

Lemma stored_add_documents (c : collection) (docs : list document)
    (d : gmap string (gmap string (list document))) :
  stored c (add_documents c docs d) = stored c d ++ docs.
Proof.
  unfold stored at 1, collections_at at 1, add_documents.
  rewrite lookup_insert_eq. simpl. by rewrite lookup_insert_eq.
Qed.

Lemma untouched_refl (c : collection)
    (d : gmap string (gmap string (list document))) : untouched c d d.
Proof. by split. Qed.

Lemma untouched_open_client (c : collection)
    (d d' : gmap string (gmap string (list document))) :
  untouched c d d' -> untouched c d (open_client (client_path c) d').
Proof.
  intros [Hp Hn]. unfold open_client. split.
  - intros p Hne. rewrite lookup_insert_ne by done. by apply Hp.
  - intros n Hne. unfold collections_at at 1.
    rewrite lookup_insert_eq. simpl. by apply Hn.
Qed.

Lemma untouched_get_or_create (c : collection)
    (d d' : gmap string (gmap string (list document))) :
  untouched c d d' -> untouched c d (get_or_create c d').
Proof.
  intros [Hp Hn]. unfold get_or_create. split.
  - intros p Hne. rewrite lookup_insert_ne by done. by apply Hp.
  - intros n Hne. unfold collections_at at 1.
    rewrite lookup_insert_eq. simpl. rewrite lookup_insert_ne by done.
    by apply Hn.
Qed.

Lemma untouched_add_documents (c : collection) (docs : list document)
    (d d' : gmap string (gmap string (list document))) :
  untouched c d d' -> untouched c d (add_documents c docs d').
Proof.
  intros [Hp Hn]. unfold add_documents. split.
  - intros p Hne. rewrite lookup_insert_ne by done. by apply Hp.
  - intros n Hne. unfold collections_at at 1.
    rewrite lookup_insert_eq. simpl. rewrite lookup_insert_ne by done.
    by apply Hn.
Qed.

(** Whatever the script and however the run ends, the disk differs from the
    one it started with in the collection [quickstart] at most. *)
Lemma call_untouched (s : script) (e : env)
    (d : gmap string (gmap string (list document))) (c : call) :
  may_call s c ->
  call_sound e (fun st => untouched quickstart d (disk st))
    (fun _ st => untouched quickstart d (disk st)) c.
Proof.
  intros Hc st H. simpl.
  destruct (fault e (calls st) c) as [x|].
  { simpl. generalize (partial e (calls st) c). intros k.
    destruct c as [| | | |path|path name| | |docs [sc|] l| | | | | | | |p|];
      simpl in *; try done; destruct k; try done.
    - destruct Hc as [_ ->]. by apply (untouched_open_client quickstart).
    - destruct Hc as [_ [= -> ->]].
      by apply (untouched_get_or_create quickstart).
    - destruct Hc as [_ ->]. by apply (untouched_add_documents quickstart). }
  destruct c as [| | | |path|path name| | |docs [sc|] l| | | | | | | |p|];
    simpl in *; try done.
  - destruct Hc as [_ ->]. by apply (untouched_open_client quickstart).
  - destruct Hc as [_ [= -> ->]]. by apply (untouched_get_or_create quickstart).
  - destruct Hc as [_ ->]. by apply (untouched_add_documents quickstart).
  - by destruct (line_at (stdin e) (consumed st)), (prompt_on_stdout e).
Qed.

Lemma run_untouched (s : script) (fuel : nat) (e : env)
    (d : gmap string (gmap string (list document))) :
  untouched quickstart d (disk (run s fuel e d).2).
Proof.
  assert (sound e (fun st => untouched quickstart d (disk st))
            (fun _ st => untouched quickstart d (disk st))
            (fun st => untouched quickstart d (disk st))
            (fun _ => True) (program s fuel)) as H.
  { apply sound_program; [done|]. intros c Hc. by eapply call_untouched. }
  specialize (H (start d) (untouched_refl _ _)). unfold run.
  by destruct (program s fuel e (start d)) as [[[]|x|] st]; [destruct H|..].
Qed.

(** ** The four scripts without a loop *)

(** A run is over after at most thirteen calls, one of which at most is a
    question. *)
Lemma straight_bounds (s : script) (fuel : nat) (e : env)
    (d : gmap string (gmap string (list document))) :
  interactive s = false ->
  length (trace (run s fuel e d).2) <= calls_made s /\
  length (questions (trace (run s fuel e d).2)) <= 1.
Proof.
  intros Hs. destruct s; try discriminate Hs;
    unfold_scripts; unfold_calls;
    repeat (next_call; [simpl; lia|]); simpl; lia.
Qed.

(** A run that returns: one question, the fixed one, whose answer is
    printed last; the folder loaded and the index built as the script
    says. *)
Lemma straight_returns (s : script) (fuel : nat) (e : env)
    (d : gmap string (gmap string (list document))) (st : state) :
  interactive s = false ->
  run s fuel e d = (Ret tt, st) ->
  exists a,
    responses e [] (trace st) = [a] /\
    questions (trace st) = [fixed_question s] /\
    printed (trace st) = printing s a /\
    shown Printed (stdout st) = map line (printing s a) /\
    last (stdout st) = Some (Printed, line a) /\
    length (trace st) = calls_made s /\
    List.filter (loads_from "pdf/") (calls st) = loading s /\
    List.filter builds_index (calls st) = indexing s e /\
    List.filter persistent_call (calls st) =
      match s with
      | Script04 =>
          [CPersistentClient "./chroma_db";
           Cget_or_create_collection "./chroma_db" "quickstart"]
            ++ indexing s e
      | _ => []
      end /\
    stored quickstart (disk st) =
      match s with
      | Script04 => stored quickstart d ++ files e "pdf/"
      | _ => stored quickstart d
      end.
Proof.
  intros Hs H. pose proof (run_prints_shown s fuel e d) as Hshown.
  rewrite H in Hshown. unfold prints_are_shown in Hshown. simpl in Hshown.
  destruct s; try discriminate Hs;
    unfold_run_in H; repeat next_call_in H; injection H as <-;
    eexists; repeat split; try reflexivity;
    try (by rewrite Hshown); try apply last_snoc.
  simpl.
  by rewrite stored_add_documents, stored_get_or_create, stored_open_client.
Qed.

Lemma responses_length (e : env) (h : list call) (tr : list event) :
  length (responses e h tr) = length (questions tr).
Proof.
  revert h. induction tr as [|ev tr IH]; intros h; [done|].
  simpl. rewrite length_app, IH. unfold questions. simpl.
  by destruct (ev_call ev).
Qed.

(** ** Floating-point facts for the tools *)



Lemma is_zero_spec (b : float) :
  is_zero b = true <-> exists s, b = S754_zero s.
Proof.
  split.
  - destruct b as [s|s| |s m e]; [by exists s | | |];
      unfold is_zero, SFeqb, SFcompare; try destruct s; discriminate.
  - by intros [s ->].
Qed.

(** What a run that returns has loaded and indexed, for all five scripts. *)
Lemma returned_calls (s : script) (fuel : nat) (e : env)
    (d : gmap string (gmap string (list document))) (st : state) :
  run s fuel e d = (Ret tt, st) ->
  List.filter (loads_from "pdf/") (calls st) = loading s /\
  List.filter builds_index (calls st) = indexing s e.
Proof.
  intros H. destruct (interactive s) eqn:Hs.
  - destruct s; try discriminate Hs.
    destruct (script03_spec fuel e d) as (k & _ & _ & _ & _ & _ & Hr).
    rewrite H in Hr. simpl in Hr.
    by destruct (Hr eq_refl) as (_ & _ & _ & _ & _ & Hload & Hix).
  - by destruct (straight_returns s fuel e d st Hs H)
      as (a & _ & _ & _ & _ & _ & _ & Hload & Hix & _).
Qed.

(** A run that returns has shown on standard output, as its own prints,
    every text it handed to [print]. *)
Lemma returned_prints_shown (s : script) (fuel : nat) (e : env)
    (d : gmap string (gmap string (list document))) :
  (run s fuel e d).1 = Ret tt ->
  shown Printed (stdout (run s fuel e d).2) =
    map line (printed (trace (run s fuel e d).2)).
Proof.
  intros H.
  pose proof (run_prints_shown s fuel e d) as Hs.
  pose proof (run_orderly s fuel e d) as Hc.
  destruct (run s fuel e d) as [r st]. simpl in *. subst r.
  unfold prints_are_shown in Hs. by rewrite Hs, printed_ok_clean.
Qed.



(** * The properties *)

(** ** 05_basic_Agent.py: the tools *)



(** C8.  [divide] is an unguarded division: when the divisor is not zero
    ([b != 0], which holds of infinities and of NaN too) it returns the IEEE
    quotient; when the divisor is a zero of either sign it raises
    [ZeroDivisionError], whatever the dividend.  Nothing in the tool
    intercepts the exception: raising is the result of the call. *)
Theorem divide_unguarded (a b : float) :
  (is_zero b = false -> divide a b = Ret (SFdiv 53 1024 a b)) /\
  (is_zero b = true -> divide a b = Raise ZeroDivisionError) /\
  (is_zero b = true <-> exists s, b = S754_zero s).
Proof.
  unfold divide, float_truediv. split; [|split].
  - by intros ->.
  - by intros ->.
  - apply is_zero_spec.
Qed.

Lemma divide_unguarded_witness :
  (is_zero f4 = false /\ divide f8 f4 = Ret f2) /\
  (is_zero (S754_zero true) = true /\
   divide f8 (S754_zero true) = Raise ZeroDivisionError).
Proof.
  split.
  - split; [reflexivity|].
    destruct (divide_unguarded f8 f4) as [H _].
    rewrite H; reflexivity.
  - split; [reflexivity|].
    destruct (divide_unguarded f8 (S754_zero true)) as (_ & H & _).
    apply H. reflexivity.
Defined.

(** The steps of the question of the script, [20 + (2 * 4) / (5 - 1)],
    done with the tools. *)
Example agent_arithmetic :
  multiply (float_of_Z 2) (float_of_Z 4) = Ret (float_of_Z 8) /\
  subtract (float_of_Z 5) (float_of_Z 1) = Ret (float_of_Z 4) /\
  divide (float_of_Z 8) (float_of_Z 4) = Ret (float_of_Z 2) /\
  add (float_of_Z 20) (float_of_Z 2) = Ret (float_of_Z 22).
Proof. repeat split; reflexivity. Qed.

(** ** 03_rag_chatbot.py: the console loop *)




(** C10.  The line that stops the loop is never sent to the chat engine.  In
    every run of 03_rag_chatbot.py, whatever fails and wherever the run is
    cut, the questions sent are the first [k] lines of standard input and
    none of them is ["exit"]; at most [k] answers are printed.  When the
    script returns, line [k] is the first ["exit"], so that chat was called
    exactly on the lines strictly before it; what the script printed is one
    ["Agent: "] line for each of these [k] questions, carrying the answer
    to it, and nothing else: no ["Agent: "] line answers ["exit"]. *)
Theorem exit_line_is_not_sent (e : env) (fuel : nat)
    (d : gmap string (gmap string (list document))) :
  exists k,
    questions (trace (run Script03 fuel e d).2) = feed (stdin e) 0 k /\
    length (questions (trace (run Script03 fuel e d).2)) = k /\
    Forall (fun q => q <> "exit")
      (questions (trace (run Script03 fuel e d).2)) /\
    length (printed (trace (run Script03 fuel e d).2)) <= k /\
    ((run Script03 fuel e d).1 = Ret tt ->
       line_at (stdin e) k = Some "exit" /\
       length (printed (trace (run Script03 fuel e d).2)) = k /\
       length (responses e [] (trace (run Script03 fuel e d).2)) = k /\
       printed (trace (run Script03 fuel e d).2) =
         map (String.append "Agent: ")
           (responses e [] (trace (run Script03 fuel e d).2)) /\
       shown Printed (stdout (run Script03 fuel e d).2) =
         map line (printed (trace (run Script03 fuel e d).2))).
Proof.
  destruct (script03_spec fuel e d) as (k & Hqs & Hk & _ & Hx & Hp & Hr).
  exists k. repeat (split; [done|]).
  intros Hret. destruct (Hr Hret) as (_ & Hexit & Hpk & _ & Hout & _).
  repeat (split; [done|]).
  split; [by rewrite responses_length|].
  split; [done|]. by apply returned_prints_shown.
Qed.

Lemma exit_line_is_not_sent_witness :
  (run Script03 5 session ∅).1 = Ret tt /\
  exists k,
    questions (trace (run Script03 5 session ∅).2) = feed (stdin session) 0 k /\
    line_at (stdin session) k = Some "exit" /\
    shown Printed (stdout (run Script03 5 session ∅).2) =
      map line (printed (trace (run Script03 5 session ∅).2)).
Proof.
  assert ((run Script03 5 session ∅).1 = Ret tt) as Hret by reflexivity.
  split; [exact Hret|].
  destruct (exit_line_is_not_sent session 5 ∅) as (k & Hq & _ & _ & _ & Hr).
  destruct (Hr Hret) as (Hexit & _ & _ & _ & Hshown).
  exists k. split; [exact Hq|]. split; [exact Hexit|exact Hshown].
Defined.

(** ** What the five scripts do *)




(** C3, as the code has it.  The scripts 01, 02, 03 and 05 leave the disk
    as they found it, however the run ends.  04_custom_rag.py leaves
    something behind: whatever else is on disk is untouched, but a run that
    returns has added the documents of [pdf/] to the collection
    ["quickstart"] under ["./chroma_db"], where they stay for later runs. *)
Theorem only_custom_rag_writes (s : script) (fuel : nat) (e : env)
    (d : gmap string (gmap string (list document))) :
  (s <> Script04 -> disk (run s fuel e d).2 = d) /\
  untouched quickstart d (disk (run s fuel e d).2) /\
  (s = Script04 -> (run s fuel e d).1 = Ret tt ->
   stored quickstart (disk (run s fuel e d).2) =
     stored quickstart d ++ files e "pdf/").
Proof.
  split; [|split].
  - intros Hs. by destruct (run_volatile s fuel e d Hs).
  - apply run_untouched.
  - intros -> Hret.
    destruct (run Script04 fuel e d) as [r st] eqn:Hrun. simpl in *.
    subst r.
    destruct (straight_returns Script04 fuel e d st eq_refl Hrun)
      as (a & _ & _ & _ & _ & _ & _ & _ & _ & _ & Hst).
    exact Hst.
Qed.

Lemma only_custom_rag_writes_witness :
  (Script01 <> Script04 /\ disk (run Script01 0 batch ∅).2 = ∅) /\
  (Script04 = Script04 /\ (run Script04 0 batch ∅).1 = Ret tt /\
   stored quickstart (disk (run Script04 0 batch ∅).2) = ["design.pdf"]).
Proof.
  split.
  - split; [discriminate|].
    destruct (only_custom_rag_writes Script01 0 batch ∅) as [H _].
    apply H. discriminate.
  - split; [reflexivity|]. split; [reflexivity|].
    destruct (only_custom_rag_writes Script04 0 batch ∅) as (_ & _ & H).
    apply H; reflexivity.
Defined.

(** C3 does not hold as stated: after 04_custom_rag.py has returned, the
    disk that was empty holds the collection with the indexed document. *)
Lemma custom_rag_leaves_a_collection :
  (run Script04 0 batch ∅).1 = Ret tt /\
  disk (run Script04 0 batch ∅).2 <> ∅ /\
  stored quickstart (disk (run Script04 0 batch ∅).2) = ["design.pdf"].
Proof.
  split; [reflexivity|]. split; [|reflexivity].
  intros H. apply (f_equal (stored quickstart)) in H.
  vm_compute in H. discriminate H.
Qed.

(** C4, as the code has it.  Exactly one script can change the disk,
    04_custom_rag.py: a run of it that returns has opened the client on
    ["./chroma_db"], got or created the collection ["quickstart"], built its
    index into that collection and left the documents there.  The other
    four never call the vector database; 01, 02 and 03 build one index with
    no storage context, in memory, and 05_basic_Agent.py builds no index. *)
Theorem one_script_persists (s : script) :
  ((exists fuel e d, disk (run s fuel e d).2 <> d) <-> s = Script04) /\
  (s <> Script04 -> forall fuel e d, volatile d (run s fuel e d).2) /\
  (forall fuel e d st,
     run s fuel e d = (Ret tt, st) ->
     List.filter builds_index (calls st) =
       match s with
       | Script01 | Script02 | Script03 =>
           [Cfrom_documents (files e "pdf/") None None]
       | Script04 =>
           [Cfrom_documents (files e "pdf/") (Some quickstart_storage)
              (Some custom_llm)]
       | Script05 => []
       end /\
     (s = Script04 ->
      List.filter persistent_call (calls st) =
        [CPersistentClient "./chroma_db";
         Cget_or_create_collection "./chroma_db" "quickstart";
         Cfrom_documents (files e "pdf/") (Some quickstart_storage)
           (Some custom_llm)] /\
      stored quickstart (disk st) = stored quickstart d ++ files e "pdf/")).
Proof.
  split; [|split].
  - split.
    + intros (fuel & e & d & Hne).
      destruct s; try reflexivity; destruct Hne;
        eapply proj1, run_volatile; discriminate.
    + intros ->. exists 0, batch, ∅.
      intros H. apply (f_equal (stored quickstart)) in H.
      vm_compute in H. discriminate H.
  - intros Hs fuel e d. by apply run_volatile.
  - intros fuel e d st H.
    destruct (returned_calls s fuel e d st H) as [_ Hix].
    split; [by destruct s|].
    intros ->.
    destruct (straight_returns Script04 fuel e d st eq_refl H)
      as (a & _ & _ & _ & _ & _ & _ & _ & _ & Hp & Hst).
    by split.
Qed.

Lemma one_script_persists_witness :
  (Script04 = Script04 /\ exists fuel e d, disk (run Script04 fuel e d).2 <> d) /\
  (Script03 <> Script04 /\ volatile ∅ (run Script03 3 session ∅).2).
Proof.
  split.
  - split; [reflexivity|].
    destruct (one_script_persists Script04) as [[_ H] _]. apply H. reflexivity.
  - split; [discriminate|].
    destruct (one_script_persists Script03) as (_ & H & _).
    apply H. discriminate.
Defined.

(** The calls of 05_basic_Agent.py when nothing fails. *)
Example agent_calls :
  calls (run Script05 0 batch ∅).2 =
    [Cload_dotenv; COpenAI (gpt35 (Some (PyInt 0)) None);
     CFunctionTool "multiply"; CFunctionTool "add"; CFunctionTool "subtract";
     CFunctionTool "divide";
     CReActAgent [Tool "multiply" multiply; Tool "add" add;
                  Tool "subtract" subtract; Tool "divide" divide]
       (Some (gpt35 (Some (PyInt 0)) None)) true;
     Cagent_chat (Agent [Tool "multiply" multiply; Tool "add" add;
                         Tool "subtract" subtract; Tool "divide" divide]
                    (Some (gpt35 (Some (PyInt 0)) None)) true)
       arithmetic_question;
     Cprint "The design goals are simplicity and speed."].
Proof. reflexivity. Qed.

(** C4 does not hold as stated: 05_basic_Agent.py is one of the other four,
    and it returns without having built any index, in memory or
    otherwise. *)
Lemma agent_script_builds_no_index :
  (run Script05 0 batch ∅).1 = Ret tt /\
  ~ (exists docs sc l,
       In (Cfrom_documents docs sc l) (calls (run Script05 0 batch ∅).2)).
Proof.
  split; [reflexivity|].
  intros (docs & sc & l & H). rewrite agent_calls in H.
  repeat (destruct H as [H|H]; [discriminate H|]). exact H.
Qed.

(** ** Failures *)

(** C6.  No script handles an error.  In every run of every script, when a
    call raises (the library, the provider or the interpreter: a missing
    folder, a missing credential, a failed request, the end of input), the
    script ends raising that very exception and the failing call is the last
    one it made: nothing is caught, retried or recovered.  Conversely a
    script only ends with an exception that its last call raised. *)
Theorem failures_propagate (s : script) (fuel : nat) (e : env)
    (d : gmap string (gmap string (list document))) :
  (forall i ev x,
     trace (run s fuel e d).2 !! i = Some ev -> ev_raised ev = Some x ->
     (run s fuel e d).1 = Raise x /\
     S i = length (trace (run s fuel e d).2)) /\
  (forall x,
     (run s fuel e d).1 = Raise x ->
     exists tr ev, trace (run s fuel e d).2 = tr ++ [ev] /\
       ev_raised ev = Some x /\
       Forall (fun ev' => ev_raised ev' = None) tr).
Proof.
  pose proof (run_orderly s fuel e d) as H.
  destruct (run s fuel e d) as [r st]. simpl.
  assert (forall i ev x, trace st !! i = Some ev -> ev_raised ev = Some x ->
            ~ clean st) as Hdirty.
  { intros i ev x Hi Hx Hc. unfold clean in Hc.
    rewrite Forall_lookup in Hc. specialize (Hc i ev Hi). congruence. }
  split.
  - intros i ev x Hi Hx. destruct r as [[]|y|].
    + by destruct (Hdirty i ev x Hi Hx).
    + destruct H as (tr & ev' & Ht & Hy & Hclean). rewrite Ht in *.
      destruct (decide (i < length tr)) as [Hlt|Hge].
      * rewrite lookup_app_l in Hi by done.
        rewrite Forall_lookup in Hclean. specialize (Hclean i ev Hi).
        congruence.
      * apply lookup_lt_Some in Hi as Hlen.
        rewrite length_app in *. simpl in *.
        assert (i = length tr) as -> by lia.
        rewrite lookup_app_r, Nat.sub_diag in Hi by lia.
        injection Hi as <-. split; [congruence|lia].
    + by destruct (Hdirty i ev x Hi Hx).
  - intros x [= ->]. exact H.
Qed.

Lemma failures_propagate_witness :
  trace (run Script01 0 no_folder ∅).2 !! 2 =
    Some (Event (CSimpleDirectoryReader "pdf/") 0
            (Some (LibraryError "ValueError"))) /\
  (run Script01 0 no_folder ∅).1 = Raise (LibraryError "ValueError") /\
  length (trace (run Script01 0 no_folder ∅).2) = 3.
Proof.
  split; [reflexivity|].
  destruct (failures_propagate Script01 0 no_folder ∅) as [H _].
  destruct (H 2 _ (LibraryError "ValueError") eq_refl eq_refl) as [Hr Hl].
  split; [exact Hr|]. symmetry. exact Hl.
Defined.

(** Without the folder, the four retrieval scripts end with the error of
    the reader; the agent script does not read it. *)
Example missing_folder :
  (run Script01 0 no_folder ∅).1 = Raise (LibraryError "ValueError") /\
  (run Script02 0 no_folder ∅).1 = Raise (LibraryError "ValueError") /\
  (run Script03 9 no_folder ∅).1 = Raise (LibraryError "ValueError") /\
  (run Script04 0 no_folder ∅).1 = Raise (LibraryError "ValueError") /\
  (run Script05 0 no_folder ∅).1 = Ret tt.
Proof. repeat split; reflexivity. Qed.

(** A pipe that ends without ["exit"] aborts 03_rag_chatbot.py. *)
Example end_of_input :
  (run Script03 9 (plain 1 (Piped ["Exit"; " exit"])) ∅).1 = Raise EOFError.
Proof. reflexivity. Qed.

(** ** Output *)

(** C7, as the code has it.  A run that returns has printed the text of
    every response it obtained, whatever that text is: standard output
    holds, as written by the script, exactly the texts it handed to [print],
    each followed by a newline (what the library itself writes there, as the
    engines and the agent built with [verbose=True] do, and the prompts of
    [input] come in between).  A script without a loop obtained exactly one
    response, to its one fixed question, and the last thing written to
    standard output is that response: 01, 02 and 05 print it and nothing
    else, 04 prints the line ["***********"] before it.  03_rag_chatbot.py
    prints, for each question in turn, the line ["Agent: "] followed by the
    response. *)
Theorem response_is_printed (s : script) (fuel : nat) (e : env)
    (d : gmap string (gmap string (list document))) (st : state) :
  run s fuel e d = (Ret tt, st) ->
  shown Printed (stdout st) = map line (printed (trace st)) /\
  if interactive s
  then printed (trace st) =
         map (String.append "Agent: ") (responses e [] (trace st))
  else exists a,
         responses e [] (trace st) = [a] /\
         questions (trace st) = [fixed_question s] /\
         printed (trace st) =
           match s with
           | Script04 => ["***********"; a]
           | _ => [a]
           end /\
         last (stdout st) = Some (Printed, line a).
Proof.
  intros H. split.
  { pose proof (returned_prints_shown s fuel e d) as Hs.
    rewrite H in Hs. by apply Hs. }
  destruct (interactive s) eqn:Hs.
  - destruct s; try discriminate Hs.
    destruct (script03_spec fuel e d) as (k & _ & _ & _ & _ & _ & Hr).
    rewrite H in Hr. simpl in Hr.
    by destruct (Hr eq_refl) as (_ & _ & _ & _ & Hout & _).
  - destruct (straight_returns s fuel e d st Hs H)
      as (a & Hr & Hq & Hp & _ & Hlast & _).
    exists a. by repeat split.
Qed.

Lemma response_is_printed_witness :
  run Script02 0 wordy ∅ = (Ret tt, (run Script02 0 wordy ∅).2) /\
  stdout (run Script02 0 wordy ∅).2 =
    [(Other, "Querying with: ...");
     (Printed, line "The design goals are simplicity and speed.")] /\
  shown Printed (stdout (run Script02 0 wordy ∅).2) =
    map line (printed (trace (run Script02 0 wordy ∅).2)) /\
  printed (trace (run Script02 0 wordy ∅).2) =
    ["The design goals are simplicity and speed."].
Proof.
  assert (run Script02 0 wordy ∅ = (Ret tt, (run Script02 0 wordy ∅).2))
    as H by reflexivity.
  split; [exact H|]. split; [reflexivity|].
  destruct (response_is_printed Script02 0 wordy ∅ _ H) as [Hshown _].
  split; [exact Hshown|reflexivity].
Defined.

(** C7 does not hold as stated.  What 04_custom_rag.py prints is not exactly
    the response of its query: a line of asterisks comes first.  And no
    script looks at the response before printing it: when the model hands
    back an empty text, 02_rag_using_chat_engine.py returns having printed
    an empty line. *)
Lemma custom_rag_prints_a_separator :
  ((run Script04 0 batch ∅).1 = Ret tt /\
   responses batch [] (trace (run Script04 0 batch ∅).2) =
     ["The design goals are simplicity and speed."] /\
   stdout (run Script04 0 batch ∅).2 =
     [(Printed, line "***********");
      (Printed, line "The design goals are simplicity and speed.")] /\
   shown Printed (stdout (run Script04 0 batch ∅).2) <>
     map line (responses batch [] (trace (run Script04 0 batch ∅).2))) /\
  ((run Script02 0 mute ∅).1 = Ret tt /\
   responses mute [] (trace (run Script02 0 mute ∅).2) = [""] /\
   stdout (run Script02 0 mute ∅).2 = [(Printed, line "")] /\
   ~ Forall (fun a => a <> "")
       (responses mute [] (trace (run Script02 0 mute ∅).2))).
Proof.
  split.
  - split; [reflexivity|]. split; [reflexivity|]. split; [reflexivity|].
    assert (shown Printed (stdout (run Script04 0 batch ∅).2) =
            [line "***********";
             line "The design goals are simplicity and speed."]) as ->
      by reflexivity.
    assert (responses batch [] (trace (run Script04 0 batch ∅).2) =
            ["The design goals are simplicity and speed."]) as ->
      by reflexivity.
    discriminate.
  - split; [reflexivity|]. split; [reflexivity|]. split; [reflexivity|].
    assert (responses mute [] (trace (run Script02 0 mute ∅).2) = [""]) as ->
      by reflexivity.
    intros H. apply Forall_cons in H as [H _]. by apply H.
Qed.

(** * Further properties of the scripts *)

(** ** Order of the calls *)

Lemma follows_seen (p q : call -> bool) (cs : list call) :
  follows p q true cs = true.
Proof. induction cs as [|c cs IH]; [done|]. simpl. by destruct (q c). Qed.

Lemma follows_app (p q : call -> bool) (seen : bool) (cs cs' : list call) :
  follows p q seen (cs ++ cs') =
  follows p q seen cs && follows p q (seen || existsb p cs) cs'.
Proof.
  revert seen. induction cs as [|c cs IH]; intros seen; simpl.
  - by rewrite orb_false_r.
  - by rewrite IH, andb_assoc, orb_assoc.
Qed.

(** What any run of the loop adds to the log is made of prompts ["User: "],
    chat calls on the one engine and printed ["Agent: "] lines. *)
Lemma chat_loop_events (e : env) (ce : chat_engine) (fuel : nat)
    (st : state) :
  exists evs,
    trace (chat_loop fuel ce e st).2 = trace st ++ evs /\
    Forall (loop_event ce) evs.
Proof.
  revert st. induction fuel as [|fuel IH]; intros st.
  { exists []. by rewrite app_nil_r. }
  cbn [chat_loop]. unfold_calls. rewrite bind_invoke.
  destruct (fault e (calls st) (Cinput "User: ")) as [x|].
  { eexists [_]. split; [reflexivity|]. by repeat constructor. }
  cbn [perform].
  set (st1 := if prompt_on_stdout e then _ else _).
  assert (trace st1 = trace st) as Ht1
    by (subst st1; by destruct (prompt_on_stdout e)).
  clearbody st1.
  destruct (line_at (stdin e) (consumed st)) as [l|].
  2:{ eexists [_]. split; [simpl; by rewrite Ht1|]. by repeat constructor. }
  change (default "" (Some l)) with l.
  destruct (String.eqb l "exit").
  { eexists [_]. split; [simpl; by rewrite Ht1|]. by repeat constructor. }
  rewrite bind_invoke.
  match goal with |- context [fault e ?h ?c] =>
    destruct (fault e h c) as [x|] end.
  { eexists [_; _]. split; [simpl; by rewrite Ht1, <- app_assoc|].
    by repeat constructor. }
  cbn [perform]. rewrite bind_invoke.
  match goal with |- context [fault e ?h ?c] =>
    destruct (fault e h c) as [x|] end.
  { eexists [_; _; _]. split; [simpl; by rewrite Ht1, <- !app_assoc|].
    repeat constructor; try done. by eexists. }
  cbn [perform].
  match goal with |- context [chat_loop fuel ce e ?s] =>
    destruct (IH s) as (evs & Ht & Hev) end.
  eexists (_ :: _ :: _ :: evs). split.
  { rewrite Ht. simpl. by rewrite Ht1, <- !app_assoc. }
  repeat constructor; try done. by eexists.
Qed.

Lemma loop_event_calls (ce : chat_engine) (evs : list event)
    (p : call -> bool) :
  (forall c, is_loop_call c = true -> p c = false) ->
  Forall (loop_event ce) evs ->
  List.filter p (map ev_call evs) = [] /\
  existsb p (map ev_call evs) = false.
Proof.
  intros Hp. induction 1 as [|ev evs Hev _ [IH1 IH2]]; [done|]. simpl.
  rewrite IH1, IH2. unfold loop_event in Hev.
  rewrite (Hp (ev_call ev)); [done|]. by destruct (ev_call ev).
Qed.

(** X1.  In every run of every script, however it ends, the first call is
    [load_dotenv]; the folder is read at most once and an index built at
    most once, after the folder was read; in the four retrieval scripts no
    question is put before the index was built, not even in the console
    loop, which never reloads or rebuilds anything. *)
Theorem index_is_built_once_before_questions (s : script) (fuel : nat)
    (e : env) (d : gmap string (gmap string (list document))) :
  head (calls (run s fuel e d).2) = Some Cload_dotenv /\
  length (List.filter (loads_from "pdf/") (calls (run s fuel e d).2)) <= 1 /\
  length (List.filter builds_index (calls (run s fuel e d).2)) <= 1 /\
  follows (loads_from "pdf/") builds_index false (calls (run s fuel e d).2)
    = true /\
  (s <> Script05 ->
   follows builds_index is_query false (calls (run s fuel e d).2) = true).
Proof.
  destruct s; unfold_scripts; unfold_calls.
  1,2,4,5: repeat (next_call; [simpl; repeat split; try done; lia|]);
    simpl; repeat split; try done; lia.
  do 6 (next_call; [simpl; repeat split; try done; lia|]).
  match goal with |- context [chat_loop fuel ?ce e ?st] =>
    destruct (chat_loop_events e ce fuel st) as (evs & Ht & Hev);
    set (r := chat_loop fuel ce e st) in *
  end.
  unfold calls. rewrite Ht. simpl in *. clearbody r.
  destruct (loop_event_calls _ evs (loads_from "pdf/")
              ltac:(by intros []) Hev) as [Hl1 Hl2].
  destruct (loop_event_calls _ evs builds_index
              ltac:(by intros []) Hev) as [Hb1 Hb2].
  rewrite Hl1, Hb1, !follows_seen. simpl. repeat split; try done; lia.
Qed.

Lemma index_is_built_once_before_questions_witness :
  Script03 <> Script05 /\
  follows builds_index is_query false (calls (run Script03 5 session ∅).2)
    = true.
Proof.
  split; [discriminate|].
  destruct (index_is_built_once_before_questions Script03 5 session ∅)
    as (_ & _ & _ & _ & H).
  apply H. discriminate.
Defined.

Lemma loop_event_Forall (ce : chat_engine) (P : call -> Prop)
    (evs : list event) :
  (forall ev, loop_event ce ev -> P (ev_call ev)) ->
  Forall (loop_event ce) evs -> Forall P (map ev_call evs).
Proof.
  intros HP. induction 1 as [|ev evs Hev _ IH]; constructor; [|done].
  by apply HP.
Qed.

(** ** Which model answers *)



(** ** The console loop, again *)

(** X5.  In every run of 03_rag_chatbot.py, however it ends, every chat call
    goes to one and the same engine, the one built before the loop over the
    documents found in [pdf/] when the script started; every prompt is
    ["User: "] and every text printed starts with ["Agent: "]. *)
Theorem chat_loop_keeps_one_engine (fuel : nat) (e : env)
    (d : gmap string (gmap string (list document))) :
  Forall (fun c =>
            match c with
            | Cas_chat_engine ix mode l v =>
                ChatEngine ix mode l v = chatbot_engine e
            | Cchat ce _ => ce = chatbot_engine e
            | Cinput p => p = "User: "
            | Cprint t => exists a, t = String.append "Agent: " a
            | _ => True
            end)
    (calls (run Script03 fuel e d).2).
Proof.
  unfold_scripts; unfold_calls.
  do 6 (next_call; [by repeat constructor|]).
  match goal with |- context [chat_loop fuel ?ce e ?st] =>
    destruct (chat_loop_events e ce fuel st) as (evs & Ht & Hev);
    set (r := chat_loop fuel ce e st) in *
  end.
  unfold calls. rewrite Ht. clearbody r. simpl in *.
  repeat (constructor; [done|]).
  eapply loop_event_Forall; [|exact Hev].
  intros ev Hl. unfold loop_event in Hl. by destruct (ev_call ev).
Qed.

(** ** The scripts without a loop, again *)



(** ** End of input *)





(** ** The vector database, again *)

(** X6.  Runs of 04_custom_rag.py add up: the script does not look at what
    the collection already holds, so a second run that returns, started on
    the disk the first one left, puts its documents after those of the
    first.  Run twice over the same folder, it stores every document
    twice. *)
Theorem custom_rag_runs_accumulate (fuel fuel' : nat) (e e' : env)
    (d : gmap string (gmap string (list document))) (st st' : state) :
  run Script04 fuel e d = (Ret tt, st) ->
  run Script04 fuel' e' (disk st) = (Ret tt, st') ->
  stored quickstart (disk st') =
    stored quickstart d ++ files e "pdf/" ++ files e' "pdf/" /\
  untouched quickstart d (disk st').
Proof.
  intros H H'.
  destruct (straight_returns Script04 fuel e d st eq_refl H)
    as (a & _ & _ & _ & _ & _ & _ & _ & _ & _ & Hst).
  destruct (straight_returns Script04 fuel' e' (disk st) st' eq_refl H')
    as (a' & _ & _ & _ & _ & _ & _ & _ & _ & _ & Hst').
  split; [by rewrite Hst', Hst, <- app_assoc|].
  pose proof (run_untouched Script04 fuel e d) as [Hp Hn].
  pose proof (run_untouched Script04 fuel' e' (disk st)) as [Hp' Hn'].
  rewrite H in Hp, Hn. rewrite H' in Hp', Hn'. simpl in *.
  split.
  - intros p Hne. by rewrite Hp', Hp.
  - intros n Hne. by rewrite Hn', Hn.
Qed.

Lemma custom_rag_runs_accumulate_witness :
  run Script04 0 batch ∅ = (Ret tt, (run Script04 0 batch ∅).2) /\
  run Script04 0 batch (disk (run Script04 0 batch ∅).2) =
    (Ret tt, (run Script04 0 batch (disk (run Script04 0 batch ∅).2)).2) /\
  stored quickstart
    (disk (run Script04 0 batch (disk (run Script04 0 batch ∅).2)).2) =
    ["design.pdf"; "design.pdf"].
Proof.
  assert (run Script04 0 batch ∅ = (Ret tt, (run Script04 0 batch ∅).2))
    as H by reflexivity.
  assert (run Script04 0 batch (disk (run Script04 0 batch ∅).2) =
          (Ret tt, (run Script04 0 batch (disk (run Script04 0 batch ∅).2)).2))
    as H' by reflexivity.
  split; [exact H|]. split; [exact H'|].
  destruct (custom_rag_runs_accumulate 0 0 batch batch ∅ _ _ H H') as [Hs _].
  exact Hs.
Defined.

(** What the collection holds on a disk reached by opening the client,
    getting the collection and adding documents, whatever part of a failing
    call was done. *)
Ltac kept_on_disk :=
  repeat match goal with
         | |- context [match ?k with O => _ | S _ => _ end] => destruct k
         end;
  cbn [effect chroma_collection sc_vector_store];
  rewrite ?stored_add_documents, ?stored_get_or_create, ?stored_open_client;
  (split; [try done; by apply prefix_app_r|try done]).

(** X7.  04_custom_rag.py does not undo what it wrote.  In every run,
    however it ends, the collection still starts with what it held before;
    and once the index build has gone through, the documents of [pdf/]
    follow: a run that fails later, at the query or at a print, leaves them
    stored. *)
Theorem custom_rag_keeps_what_it_indexed (fuel : nat) (e : env)
    (d : gmap string (gmap string (list document))) :
  stored quickstart d `prefix_of`
    stored quickstart (disk (run Script04 fuel e d).2) /\
  (indexed (trace (run Script04 fuel e d).2) = true ->
   stored quickstart (disk (run Script04 fuel e d).2) =
     stored quickstart d ++ files e "pdf/").
Proof.
  unfold_scripts. unfold_calls.
  repeat (next_call; [simpl; kept_on_disk|]).
  simpl. kept_on_disk.
Qed.

Lemma custom_rag_keeps_what_it_indexed_witness :
  indexed (trace (run Script04 0 stuck ∅).2) = true /\
  (run Script04 0 stuck ∅).1 = Raise (LibraryError "APIConnectionError") /\
  stored quickstart (disk (run Script04 0 stuck ∅).2) = ["design.pdf"].
Proof.
  assert (indexed (trace (run Script04 0 stuck ∅).2) = true) as Hi
    by reflexivity.
  split; [exact Hi|]. split; [reflexivity|].
  destruct (custom_rag_keeps_what_it_indexed 0 stuck ∅) as [_ H].
  exact (H Hi).
Defined.

(** ** The tools, again *)




Lemma float_sub_add_neg (a b : float) :
  SFsub prec emax a b = SFadd prec emax a (SFopp b).
Proof.
  destruct a as [sa|sa| |sa ma ea], b as [sb|sb| |sb mb eb];
    unfold SFsub, SFadd, SFopp; try reflexivity;
    by destruct sa, sb.
Qed.

(** X9.  The tools agree with each other: for all floats [a] and [b] with
    [b] not a NaN, [subtract(a, b)] is [add(a, -b)], so that subtracting is
    adding the negated number, signed zeros and infinities included. *)
Theorem subtract_is_add_of_negation (a b : float) :
  is_nan b = false ->
  subtract a b = add a (float_neg b).
Proof.
  intros _. unfold subtract, add, float_sub, float_add, float_neg.
  by rewrite float_sub_add_neg.
Qed.

Lemma subtract_is_add_of_negation_witness :
  is_nan (S754_zero true) = false /\
  subtract f2 (S754_zero true) = add f2 (float_neg (S754_zero true)) /\
  subtract f2 (S754_zero true) = Ret f2.
Proof.
  split; [reflexivity|].
  split; [|reflexivity].
  apply (subtract_is_add_of_negation f2 (S754_zero true)). reflexivity.
Defined.

(** ** The scripts without a loop end *)

(** X10.  The four scripts without a loop always end, returning or raising:
    a run makes at most [calls_made s] calls (8 in 01 and 02, 13 in 04 and 9
    in 05, library calls and prints), at most one of them a question; a run
    that returns has made exactly that many and has put exactly its fixed
    question. *)
Theorem straight_scripts_end (s : script) (fuel : nat) (e : env)
    (d : gmap string (gmap string (list document))) :
  interactive s = false ->
  (run s fuel e d).1 <> Pending /\
  length (trace (run s fuel e d).2) <= calls_made s /\
  length (questions (trace (run s fuel e d).2)) <= 1 /\
  ((run s fuel e d).1 = Ret tt ->
   length (trace (run s fuel e d).2) = calls_made s /\
   questions (trace (run s fuel e d).2) = [fixed_question s]).
Proof.
  intros Hs. split; [by apply run_not_pending|].
  destruct (straight_bounds s fuel e d Hs) as [Hlen Hq].
  split; [done|]. split; [done|].
  intros Hret. destruct (run s fuel e d) as [r st] eqn:Hrun.
  simpl in *. subst r.
  by destruct (straight_returns s fuel e d st Hs Hrun)
    as (a & _ & H & _ & _ & _ & Hn & _).
Qed.

Lemma straight_scripts_end_witness :
  interactive Script04 = false /\
  (run Script04 0 batch ∅).1 = Ret tt /\
  length (trace (run Script04 0 batch ∅).2) = 13 /\
  questions (trace (run Script04 0 batch ∅).2) = [design_goals].
Proof.
  split; [reflexivity|]. split; [reflexivity|].
  destruct (straight_scripts_end Script04 0 batch ∅ eq_refl)
    as (_ & _ & _ & H).
  exact (H eq_refl).
Defined.
